(** * Centralised logging driver ([app/logging_driver.py])

    A shallow embedding of the [CentralizedLogging] manager and of the
    facts its specification states about it.

    The manager is a thin layer over Python's [logging] package.  The
    embedding keeps the manager's own control flow as the source has it
    and splits the world it acts on in two:

    - what the driver itself owns ([_configured], [custom_handlers],
      [default_config]);
    - the environment it calls into: the root logger, the file system and
      standard output.  [logging.basicConfig], the emission of a record
      through the root logger and the name space of the [logging] module
      are operations of a [Runtime] that the development is parametric
      in; directory creation, file opening and path arithmetic are given
      by a small POSIX model. *)

From Stdlib Require Import ZArith List String Ascii Bool Lia.
From stdpp Require Import gmap strings list fin_maps.

Set Warnings "-register-all".
Open Scope string_scope.

(** ** Python values *)

(** Python is dynamically typed: every keyword argument, dictionary entry
    and handler is a value of one universal type.  [PObject] stands for
    any object the driver only passes around (a caller-built handler, a
    stream): it is known by its identity alone.  The handler and formatter
    constructors record the arguments the driver builds them from. *)
Inductive pyval : Type :=
| PNone
| PBool (b : bool)
| PInt (z : Z)
| PStr (s : string)
| PList (xs : list pyval)
| PStdout
| PFormatter (fmt datefmt : pyval)
| PStreamHandler (stream formatter level : pyval)
| PRotatingFileHandler
    (filename maxBytes backupCount encoding formatter level : pyval)
| PObject (id : nat).

(** Truth value of an object, as [if x:] and [x or y] test it. *)
Definition truthy (v : pyval) : bool :=
  match v with
  | PNone => false
  | PBool b => b
  | PInt z => negb (Z.eqb z 0)
  | PStr s => negb (String.eqb s "")
  | PList xs => match xs with [] => false | _ => true end
  | _ => true
  end.

(** [x or y] *)
Definition py_or (x y : pyval) : pyval := if truthy x then x else y.

(** Structural comparison; on handlers, which define no [__eq__], Python's
    [==] is identity, and two handlers built from the same arguments are
    not told apart by the embedding. *)
Fixpoint py_eqb (x y : pyval) {struct x} : bool :=
  let fix all2 (xs ys : list pyval) {struct xs} : bool :=
    match xs, ys with
    | [], [] => true
    | x' :: xs', y' :: ys' => py_eqb x' y' && all2 xs' ys'
    | _, _ => false
    end in
  match x, y with
  | PNone, PNone => true
  | PBool a, PBool b => Bool.eqb a b
  | PInt a, PInt b => Z.eqb a b
  | PStr a, PStr b => String.eqb a b
  | PList xs, PList ys => all2 xs ys
  | PStdout, PStdout => true
  | PFormatter f1 d1, PFormatter f2 d2 => py_eqb f1 f2 && py_eqb d1 d2
  | PStreamHandler s1 f1 l1, PStreamHandler s2 f2 l2 =>
      py_eqb s1 s2 && py_eqb f1 f2 && py_eqb l1 l2
  | PRotatingFileHandler n1 m1 b1 e1 f1 l1,
    PRotatingFileHandler n2 m2 b2 e2 f2 l2 =>
      py_eqb n1 n2 && py_eqb m1 m2 && py_eqb b1 b2 && py_eqb e1 e2
      && py_eqb f1 f2 && py_eqb l1 l2
  | PObject a, PObject b => Nat.eqb a b
  | _, _ => false
  end.

(** A keyword-argument mapping or configuration dictionary. *)
Abbreviation dict := (gmap string pyval).

(** [d.get(k, dflt)] *)
Definition dict_get (d : dict) (k : string) (dflt : pyval) : pyval :=
  default dflt (d !! k).

(** [d.update(other)]: every key of [other] overrides. *)
Definition dict_update (d other : dict) : dict := other ∪ d.

(** ** Exceptions and outcomes *)

(** The exception classes the driver and the modelled library calls raise. *)
Inductive exn : Type :=
| FileNotFoundError
| FileExistsError
| NotADirectoryError
| IsADirectoryError
| TypeError
| ValueError
| KeyError (key : string).

(** A call either returns a value or raises; in both cases the state it
    reached is kept, since an exception does not undo earlier effects. *)
Inductive outcome (S A : Type) : Type :=
| Returned (a : A) (s : S)
| Raised (e : exn) (s : S).
Arguments Returned {S A} a s.
Arguments Raised {S A} e s.

Definition final_state {S A} (o : outcome S A) : S :=
  match o with Returned _ s => s | Raised _ s => s end.

Definition returns {S A} (o : outcome S A) : bool :=
  match o with Returned _ _ => true | Raised _ _ => false end.

(** ** Paths and the file system *)

Module Posix.

Definition slash : ascii := "/"%char.

(** [s.split('/')] *)
Fixpoint split_slash (s : string) : list string :=
  match s with
  | EmptyString => [EmptyString]
  | String a rest =>
      if Ascii.eqb a slash then EmptyString :: split_slash rest
      else match split_slash rest with
           | [] => [String a EmptyString]
           | hd :: tl => String a hd :: tl
           end
  end.

Fixpoint has_slash (s : string) : bool :=
  match s with
  | EmptyString => false
  | String a rest => Ascii.eqb a slash || has_slash rest
  end.

Fixpoint all_slashes (s : string) : bool :=
  match s with
  | EmptyString => true
  | String a rest => Ascii.eqb a slash && all_slashes rest
  end.

(** [p[:p.rfind('/') + 1]] *)
Fixpoint upto_last_slash (p : string) : string :=
  match p with
  | EmptyString => EmptyString
  | String a rest =>
      if has_slash rest then String a (upto_last_slash rest)
      else if Ascii.eqb a slash then String a EmptyString
      else EmptyString
  end.

(** [s.rstrip('/')] *)
Fixpoint rstrip_slash (s : string) : string :=
  match s with
  | EmptyString => EmptyString
  | String a rest =>
      let rest' := rstrip_slash rest in
      if Ascii.eqb a slash && String.eqb rest' "" then EmptyString
      else String a rest'
  end.

(** [os.path.dirname] (posixpath): the part before the last slash, its
    trailing slashes removed unless it consists of slashes only. *)
Definition dirname (p : string) : string :=
  let head := upto_last_slash p in
  if negb (String.eqb head "") && negb (all_slashes head)
  then rstrip_slash head else head.

Definition is_absolute (p : string) : bool :=
  match p with String a _ => Ascii.eqb a slash | EmptyString => false end.

(** The root [pathlib] keeps: exactly two leading slashes are preserved. *)
Definition path_root (p : string) : string :=
  match p with
  | String a (String b (String c _)) =>
      if Ascii.eqb a slash then
        if Ascii.eqb b slash && negb (Ascii.eqb c slash) then "//" else "/"
      else ""
  | String a (String b EmptyString) =>
      if Ascii.eqb a slash then if Ascii.eqb b slash then "//" else "/"
      else ""
  | String a EmptyString => if Ascii.eqb a slash then "/" else ""
  | EmptyString => ""
  end.

(** The components [pathlib] keeps: empty and [.] components are dropped,
    [..] components stay. *)
Definition path_parts (p : string) : list string :=
  List.filter (fun c => negb (String.eqb c "") && negb (String.eqb c "."))
              (split_slash p).

Definition join_parts (root : string) (parts : list string) : string :=
  match root, parts with
  | EmptyString, [] => "."
  | _, _ => root ++ String.concat "/" parts
  end.

(** [str(Path(p))] *)
Definition path_str (p : string) : string :=
  join_parts (path_root p) (path_parts p).

(** [str(Path(p) / name)] for a relative [name] without slashes. *)
Definition path_join (p name : string) : string :=
  join_parts (path_root p) (path_parts p ++ [name])%list.

(** A file system: the working directory, the directories and the regular
    files that exist, each named by its components from the root (the
    root itself always exists).  No symbolic links, no permissions. *)
Record FS : Type := mkFS {
  cwd : list string;
  dirs : list (list string);
  files : list (list string)
}.

Definition is_dir (fs : FS) (p : list string) : bool :=
  match p with [] => true | _ => bool_decide (p ∈ dirs fs) end.

Definition is_file (fs : FS) (p : list string) : bool :=
  bool_decide (p ∈ files fs).

(** Resolution of a sequence of components, each of which has to name a
    directory, starting from the directory [cur]. *)
Fixpoint walk (fs : FS) (cur : list string) (comps : list string)
  : exn + list string :=
  match comps with
  | [] => inr cur
  | c :: rest =>
      if String.eqb c "" || String.eqb c "." then walk fs cur rest
      else if String.eqb c ".." then walk fs (removelast cur) rest
      else
        let next := (cur ++ [c])%list in
        if is_dir fs next then walk fs next rest
        else if is_file fs next then inl NotADirectoryError
        else inl FileNotFoundError
  end.

Definition start_dir (fs : FS) (p : string) : list string :=
  if is_absolute p then [] else cwd fs.

Definition components (p : string) : list string :=
  List.filter (fun c => negb (String.eqb c "")) (split_slash p).

(** [os.mkdir(p)]: one directory is created, in a parent that exists. *)
Definition os_mkdir (p : string) (fs : FS) : exn + FS :=
  if String.eqb p "" then inl FileNotFoundError
  else
    match rev (components p) with
    | [] => inl FileExistsError
    | last :: rinit =>
        match walk fs (start_dir fs p) (rev rinit) with
        | inl e => inl e
        | inr parent =>
            if String.eqb last "." || String.eqb last ".."
            then inl FileExistsError
            else
              let target := (parent ++ [last])%list in
              if is_dir fs target || is_file fs target
              then inl FileExistsError
              else inr (mkFS (cwd fs) (target :: dirs fs) (files fs))
        end
    end.

(** [Path(p).is_dir()] *)
Definition path_is_dir (p : string) (fs : FS) : bool :=
  match walk fs (start_dir fs p) (components p) with
  | inr _ => negb (String.eqb p "")
  | inl _ => false
  end.

(** [Path(p).mkdir(exist_ok=True)]: [parents] keeps its default [False],
    so a missing parent is an error; any other failure is forgiven when
    the path is a directory already. *)
Definition mkdir_exist_ok (p : string) (fs : FS) : exn + FS :=
  let q := path_str p in
  match os_mkdir q fs with
  | inr fs' => inr fs'
  | inl FileNotFoundError => inl FileNotFoundError
  | inl e => if path_is_dir q fs then inr fs else inl e
  end.

(** [os.path.abspath]: lexical; [..] removes the component before it. *)
Definition abspath (p : string) (fs : FS) : list string :=
  fold_left
    (fun acc c =>
       if String.eqb c "." then acc
       else if String.eqb c ".." then removelast acc
       else (acc ++ [c])%list)
    (components p) (start_dir fs p).

(** [open(os.path.abspath(p), 'a')]: the file is created when missing. *)
Definition open_append (p : string) (fs : FS) : exn + FS :=
  let target := abspath p fs in
  match walk fs [] (removelast target) with
  | inl e => inl e
  | inr _ =>
      if is_dir fs target then inl IsADirectoryError
      else if is_file fs target then inr fs
      else inr (mkFS (cwd fs) (dirs fs) (target :: files fs))
  end.

End Posix.

(** ** The logging runtime *)

(** Numeric values of the level constants of the [logging] module. *)
Definition CRITICAL : Z := 50.
Definition ERROR : Z := 40.
Definition WARNING : Z := 30.
Definition INFO : Z := 20.
Definition DEBUG : Z := 10.
Definition NOTSET : Z := 0.

(** What the driver reaches outside itself: the root logger (its level
    and its list of handlers), the file system and standard output. *)
Record Env : Type := mkEnv {
  root_level : pyval;
  root_handlers : list pyval;
  fs : Posix.FS;
  stdout : list string
}.

(** The operations of the [logging] package the driver relies on without
    defining them.  [basicConfig] receives the keyword dictionary,
    [root_debug] the dictionary whose rendering is the debug record's
    message, [logging_getattr] answers [getattr(logging, name, ...)]. *)
Record Runtime : Type := mkRuntime {
  basicConfig : dict -> Env -> outcome Env unit;
  root_debug : dict -> Env -> outcome Env unit;
  logging_getattr : string -> option pyval
}.

(** ** The manager *)

(** The singleton's state.  [applied] is a ghost history, newest first, of
    the dictionaries with which [logging.basicConfig] was called and
    returned: its head is the configuration the driver last asked the
    runtime to make active. *)
Record World : Type := mkWorld {
  _configured : bool;
  custom_handlers : list pyval;
  applied : list dict;
  env : Env
}.

Definition active (w : World) : option dict := head (applied w).

(** Computations of the driver: state passing with exceptions. *)
Definition M (A : Type) : Type := World -> outcome World A.

Definition ret {A} (a : A) : M A := fun w => Returned a w.

Definition bind {A B} (m : M A) (k : A -> M B) : M B :=
  fun w => match m w with
           | Returned a w' => k a w'
           | Raised e w' => Raised e w'
           end.

Definition raise {A} (e : exn) : M A := fun w => Raised e w.

Declare Scope py_scope.
Delimit Scope py_scope with py.
Notation "x <- m ;; k" := (bind m (fun x => k))
  (at level 100, m at next level, right associativity) : py_scope.
Notation "m ;; k" := (bind m (fun _ => k))
  (at level 100, right associativity) : py_scope.

Definition set_env (w : World) (e : Env) : World :=
  mkWorld (_configured w) (custom_handlers w) (applied w) e.

Definition set_fs (e : Env) (f : Posix.FS) : Env :=
  mkEnv (root_level e) (root_handlers e) f (stdout e).

(** A file-system call made by the driver or by a handler constructor. *)
Definition fs_call (f : Posix.FS -> exn + Posix.FS) : M unit :=
  fun w => match f (fs (env w)) with
           | inr f' => Returned tt (set_env w (set_fs (env w) f'))
           | inl e => Raised e w
           end.

(** [print(line)] *)
Definition print (line : string) : M unit :=
  fun w =>
    let e := env w in
    Returned tt
      (set_env w (mkEnv (root_level e) (root_handlers e) (fs e)
                        (stdout e ++ [line])%list)).

(** [d[k]] *)
Definition subscript (d : dict) (k : string) : M pyval :=
  match d !! k with
  | Some v => ret v
  | None => raise (KeyError k)
  end.

(** [self.default_config], set once in [__init__]. *)
Definition default_config : dict :=
  list_to_map
    [ ("level", PInt INFO);
      ("format", PStr "%(asctime)s - %(name)s - %(levelname)s - %(message)s");
      ("datefmt", PStr "%Y-%m-%d %H:%M:%S");
      ("filename", PNone);
      ("filemode", PStr "a");
      ("stream", PNone);
      ("handlers", PNone);
      ("force", PBool false);
      ("encoding", PStr "utf-8");
      ("errors", PNone) ].

(** The manager as [__init__] leaves it, in a given environment. *)
Definition init_world (e : Env) : World := mkWorld false [] [] e.

(** [handler.setFormatter(f)] and [handler.setLevel(l)]: the handler keeps
    the argument. *)
Definition setFormatter (h f : pyval) : pyval :=
  match h with
  | PStreamHandler s _ l => PStreamHandler s f l
  | PRotatingFileHandler n m b e _ l => PRotatingFileHandler n m b e f l
  | _ => h
  end.

Definition setLevel (h l : pyval) : pyval :=
  match h with
  | PStreamHandler s f _ => PStreamHandler s f l
  | PRotatingFileHandler n m b e f _ => PRotatingFileHandler n m b e f l
  | _ => h
  end.

(** [logging.StreamHandler(stream)]: no formatter yet, level [NOTSET]. *)
Definition StreamHandler (stream : pyval) : pyval :=
  PStreamHandler stream PNone (PInt NOTSET).

(** [logging.handlers.RotatingFileHandler(filename, maxBytes=..,
    backupCount=.., encoding=..)]: the constructor opens the file for
    appending.  The checks the library makes on the other arguments are
    not part of the embedding. *)
Definition RotatingFileHandler
    (filename : string) (maxBytes backupCount encoding : pyval) : M pyval :=
  (fs_call (Posix.open_append filename) ;;
   ret (PRotatingFileHandler (PStr filename) maxBytes backupCount encoding
          PNone (PInt NOTSET)))%py.

(** [os.path.dirname(v)]: a [str] is required. *)
Definition os_path_dirname (v : pyval) : M string :=
  match v with
  | PStr s => ret (Posix.dirname s)
  | _ => raise TypeError
  end.

Definition the_format : pyval :=
  PStr "%(asctime)s - %(name)s - %(levelname)s - %(message)s".
Definition the_datefmt : pyval := PStr "%Y-%m-%d %H:%M:%S".

Definition ten_MiB : Z := 10 * 1024 * 1024.

(** [CentralizedLogging._create_handlers] *)
Definition _create_handlers (config : dict) : M (list pyval) :=
  (let handlers : list pyval := [] in
   handlers <-
     (if negb (truthy (dict_get config "disable_console" (PBool false))) then
        let console_handler := StreamHandler PStdout in
        let console_formatter :=
          PFormatter
            (dict_get config "format" (dict_get default_config "format" PNone))
            (dict_get config "datefmt" (dict_get default_config "datefmt" PNone)) in
        let console_handler := setFormatter console_handler console_formatter in
        level <- subscript config "level" ;;
        let console_handler := setLevel console_handler level in
        ret (handlers ++ [console_handler])%list
      else ret handlers) ;;
   handlers <-
     (if truthy (dict_get config "filename" PNone) then
        filename <- subscript config "filename" ;;
        dir <- os_path_dirname filename ;;
        let log_dir := py_or (PStr dir) (PStr ".") in
        (if truthy log_dir then
           match log_dir with
           | PStr d => fs_call (Posix.mkdir_exist_ok d)
           | _ => raise TypeError
           end
         else ret tt) ;;
        file_handler <-
          match filename with
          | PStr name =>
              RotatingFileHandler name
                (dict_get config "max_bytes" (PInt ten_MiB))
                (dict_get config "backup_count" (PInt 5))
                (dict_get config "encoding" (PStr "utf-8"))
          | _ => raise TypeError
          end ;;
        let file_formatter :=
          PFormatter
            (dict_get config "format" (dict_get default_config "format" PNone))
            (dict_get config "datefmt" (dict_get default_config "datefmt" PNone)) in
        let file_handler := setFormatter file_handler file_formatter in
        level <- subscript config "level" ;;
        let file_handler := setLevel file_handler level in
        ret (handlers ++ [file_handler])%list
      else ret handlers) ;;
   fun w => ret (handlers ++ custom_handlers w)%list w)%py.

(** [CentralizedLogging.add_custom_handler] *)
Definition add_custom_handler (handler : pyval) : M unit :=
  fun w =>
    Returned tt
      (mkWorld (_configured w) (custom_handlers w ++ [handler])%list
               (applied w) (env w)).

(** [str.upper] on the ASCII letters. *)
Definition upper_ascii (c : ascii) : ascii :=
  let n := nat_of_ascii c in
  if (97 <=? n)%nat && (n <=? 122)%nat then ascii_of_nat (n - 32) else c.

Fixpoint upper (s : string) : string :=
  match s with
  | EmptyString => EmptyString
  | String c rest => String (upper_ascii c) (upper rest)
  end.

Definition skip_message : string :=
  "Logging ya configurado. Usa force=True para reconfigurar.".

Section Driver.

Variable rt : Runtime.

(** [getattr(logging, name, dflt)] *)
Definition getattr_logging (name : string) (dflt : pyval) : pyval :=
  default dflt (logging_getattr rt name).

(** The call of [logging.basicConfig] with [config] as keywords, then
    [self._configured = True]. *)
Definition apply_basicConfig (config : dict) : M unit :=
  fun w =>
    match basicConfig rt config (env w) with
    | Returned _ e =>
        Returned tt (mkWorld true (custom_handlers w) (config :: applied w) e)
    | Raised x e => Raised x (set_env w e)
    end.

(** [logging.getLogger().debug(f"Logging configurado: {config}")] *)
Definition log_configured (config : dict) : M unit :=
  fun w =>
    match root_debug rt config (env w) with
    | Returned _ e => Returned tt (set_env w e)
    | Raised x e => Raised x (set_env w e)
    end.

(** The handler choice of [configure] (lines 69-72): the dictionary that
    is handed to [basicConfig]. *)
Definition choose_handlers (kwargs config : dict) : M dict :=
  fun w =>
    match kwargs !! "handlers" with
    | Some v => ret (<["handlers" := v]> config) w
    | None =>
        if truthy (py_or (dict_get config "filename" PNone)
                         (PList (custom_handlers w)))
        then (hs <- _create_handlers config ;;
              ret (<["handlers" := PList hs]> config))%py w
        else ret config w
    end.

(** [CentralizedLogging.configure] *)
Definition configure (kwargs : dict) : M unit :=
  fun w =>
    if _configured w && negb (truthy (dict_get kwargs "force" (PBool false)))
    then print skip_message w
    else
      (let config := dict_update default_config kwargs in
       config <- choose_handlers kwargs config ;;
       apply_basicConfig config ;;
       log_configured config)%py w.

(** [CentralizedLogging.setup_default_config] *)
Definition setup_default_config
    (level : string) (log_to_file log_to_console : bool) (log_dir : string)
  : M unit :=
  (let level_value := getattr_logging (upper level) (PInt INFO) in
   let config : dict :=
     list_to_map
       [ ("level", level_value);
         ("format", PStr "%(asctime)s - %(name)s - %(levelname)s - %(message)s");
         ("datefmt", PStr "%Y-%m-%d %H:%M:%S");
         ("force", PBool true) ] in
   config <-
     (if log_to_file then
        fs_call (Posix.mkdir_exist_ok log_dir) ;;
        let config :=
          <["filename" := PStr (Posix.path_join log_dir "application.log")]> config in
        let config := <["max_bytes" := PInt ten_MiB]> config in
        let config := <["backup_count" := PInt 5]> config in
        ret config
      else ret config) ;;
   let config :=
     if negb log_to_console then <["disable_console" := PBool true]> config
     else config in
   configure config)%py.

End Driver.

(** [CentralizedLogging.get_config] *)
Definition get_config (w : World) : dict :=
  list_to_map
    [ ("level", root_level (env w));
      ("handlers_count", PInt (Z.of_nat (length (root_handlers (env w)))));
      ("configured", PBool (_configured w)) ].

(** [list.remove(x)]: the first equal element goes. *)
Fixpoint list_remove (x : pyval) (l : list pyval) : list pyval :=
  match l with
  | [] => []
  | y :: l' => if py_eqb y x then l' else y :: list_remove x l'
  end.

(** [Logger.removeHandler]: [if hdlr in self.handlers: self.handlers.remove(hdlr)] *)
Definition removeHandler (hdlr : pyval) (handlers : list pyval) : list pyval :=
  if existsb (fun y => py_eqb y hdlr) handlers
  then list_remove hdlr handlers else handlers.

(** [CentralizedLogging.reset]: the loop runs over a copy of the root
    logger's handler list. *)
Definition reset (w : World) : World :=
  let e := env w in
  let remaining :=
    fold_left (fun hs handler => removeHandler handler hs)
              (root_handlers e) (root_handlers e) in
  mkWorld false [] (applied w)
          (mkEnv (root_level e) remaining (fs e) (stdout e)).

(** ** Notions used in the statements *)

(** The test at the head of [configure]. *)
Definition skipped (kwargs : dict) (w : World) : bool :=
  _configured w && negb (truthy (dict_get kwargs "force" (PBool false))).

(** The state after the skip message has been printed. *)
Definition warned (w : World) : World :=
  let e := env w in
  mkWorld (_configured w) (custom_handlers w) (applied w)
          (mkEnv (root_level e) (root_handlers e) (fs e)
                 (stdout e ++ [skip_message])%list).

(** [m] relates every start state to the state it ends in, whether it
    returns or raises. *)
Definition preserves {A} (R : World -> World -> Prop) (m : M A) : Prop :=
  forall w, R w (final_state (m w)).

(** Only the file system may differ. *)
Definition fs_only (w w' : World) : Prop :=
  _configured w' = _configured w
  /\ custom_handlers w' = custom_handlers w
  /\ applied w' = applied w
  /\ root_level (env w') = root_level (env w)
  /\ root_handlers (env w') = root_handlers (env w)
  /\ stdout (env w') = stdout (env w).

(** The sink list as the specification describes it.  [field] reads an
    entry of the effective configuration. *)
Definition field (config : dict) (k : string) : pyval := dict_get config k PNone.

Definition formatter_of (config : dict) : pyval :=
  PFormatter (field config "format") (field config "datefmt").

(** A console sink on standard output, with the formatter and threshold of
    the configuration. *)
Definition console_sink (config : dict) : pyval :=
  PStreamHandler PStdout (formatter_of config) (field config "level").

(** A rotating file sink for [fileName] with [maxBytes] (10 MiB unless
    given), [backupCount] (5 unless given) and the encoding, with the same
    formatter and threshold. *)
Definition file_sink (config : dict) : pyval :=
  PRotatingFileHandler
    (field config "filename")
    (dict_get config "max_bytes" (PInt 10485760))
    (dict_get config "backup_count" (PInt 5))
    (field config "encoding")
    (formatter_of config) (field config "level").

Definition derived_sinks (config : dict) (customs : list pyval) : list pyval :=
  ((if truthy (field config "disable_console") then [] else [console_sink config])
   ++ (if truthy (field config "filename") then [file_sink config] else [])
   ++ customs)%list.

Definition nonempty (l : list pyval) : bool :=
  match l with [] => false | _ => true end.


(** Registering the handlers of [hs] one after the other. *)
Definition register_all (hs : list pyval) (w : World) : World :=
  fold_left (fun w h => final_state (add_custom_handler h w)) hs w.

(** The keyword dictionary [setup_default_config] builds. *)
Definition default_options (rt : Runtime)
    (level : string) (log_to_file log_to_console : bool) (log_dir : string)
  : dict :=
  let config : dict :=
    list_to_map
      [ ("level", getattr_logging rt (upper level) (PInt INFO));
        ("format", PStr "%(asctime)s - %(name)s - %(levelname)s - %(message)s");
        ("datefmt", PStr "%Y-%m-%d %H:%M:%S");
        ("force", PBool true) ] in
  let config :=
    if log_to_file then
      <["backup_count" := PInt 5]>
        (<["max_bytes" := PInt ten_MiB]>
           (<["filename" := PStr (Posix.path_join log_dir "application.log")]>
              config))
    else config in
  if negb log_to_console then <["disable_console" := PBool true]> config
  else config.


(** ** A runtime and inputs for the examples *)

(** The upper-case names the [logging] module defines. *)
Definition logging_constants (name : string) : option pyval :=
  if String.eqb name "CRITICAL" then Some (PInt CRITICAL)
  else if String.eqb name "FATAL" then Some (PInt CRITICAL)
  else if String.eqb name "ERROR" then Some (PInt ERROR)
  else if String.eqb name "WARNING" then Some (PInt WARNING)
  else if String.eqb name "WARN" then Some (PInt WARNING)
  else if String.eqb name "INFO" then Some (PInt INFO)
  else if String.eqb name "DEBUG" then Some (PInt DEBUG)
  else if String.eqb name "NOTSET" then Some (PInt NOTSET)
  else if String.eqb name "BASIC_FORMAT"
       then Some (PStr "%(levelname)s:%(name)s:%(message)s")
  else None.

(** A runtime that accepts every dictionary: with [force] the handlers in
    place are dropped, and a root logger without handlers receives the
    dictionary's handler list (a stream handler on standard error when
    there is none) and its level.  The checks CPython makes on the
    combination of keywords are left out; the debug record is not
    rendered. *)
Definition lenient_basicConfig (config : dict) (e : Env) : outcome Env unit :=
  let kept :=
    if truthy (dict_get config "force" (PBool false)) then []
    else root_handlers e in
  match kept with
  | [] =>
      let hs := match dict_get config "handlers" PNone with
                | PList hs => hs
                | _ => [StreamHandler (PObject 0)]
                end in
      let lvl := match dict_get config "level" PNone with
                 | PNone => root_level e
                 | v => v
                 end in
      Returned tt (mkEnv lvl hs (fs e) (stdout e))
  | _ => Returned tt e
  end.

Definition lenient : Runtime :=
  mkRuntime lenient_basicConfig (fun _ e => Returned tt e) logging_constants.

(** A process that has just started in [/srv/app]: the root logger is at
    [WARNING] and has no handler; nothing has been printed. *)
Definition fresh_fs : Posix.FS :=
  Posix.mkFS ["srv"; "app"] [["srv"]; ["srv"; "app"]] [].
Definition fresh_env : Env := mkEnv (PInt WARNING) [] fresh_fs [].
Definition at_start : World := init_world fresh_env.

(** The manager at start, with two custom handlers registered. *)
Definition with_two_customs : World :=
  mkWorld false [PObject 7; PObject 8] [] fresh_env.

(** Keyword dictionaries written as association lists. *)
Definition kw (l : list (string * pyval)) : dict := list_to_map l.

Definition kw_debug_file : dict :=
  kw [("level", PInt DEBUG); ("filename", PStr "logs/iot_system.log")].
Definition kw_error_only : dict := kw [("level", PInt ERROR)].
Definition kw_forced : dict := kw [("force", PBool true)].
Definition kw_file_no_console : dict :=
  kw [("filename", PStr "logs/iot_system.log"); ("disable_console", PBool true);
      ("max_bytes", PInt 4096)].
Definition kw_file_handlers_none : dict :=
  kw [("filename", PStr "logs/iot_system.log"); ("handlers", PNone)].
Definition kw_nested_file : dict :=
  kw [("filename", PStr "logs/iot/system.log"); ("force", PBool true)].

(** ** The module-level functions and their callers *)


(** The state [w] with the file system [f]. *)
Definition with_fs (w : World) (f : Posix.FS) : World :=
  set_env w (set_fs (env w) f).




(** The functions [logging_driver.py] defines on the global instance
    [_logging_manager]. *)
Module Api.

Section Functions.

Variable rt : Runtime.

(** [setup_logging] *)
Definition setup_logging (kwargs : dict) : M unit := configure rt kwargs.

(** [setup_default_logging] *)
Definition setup_default_logging
    (level : string) (log_to_file log_to_console : bool) (log_dir : string)
  : M unit :=
  setup_default_config rt level log_to_file log_to_console log_dir.

(** [add_custom_handler] *)
Definition add_custom_handler (handler : pyval) : M unit :=
  add_custom_handler handler.

(** [get_logging_config] *)
Definition get_logging_config (w : World) : dict := get_config w.

End Functions.

End Api.

(** [logging_config.py] *)
Module LoggingConfig.

Section Functions.

Variable rt : Runtime.

(** [logging.getLogger().info(message)], an operation of the runtime. *)
Variable root_info : string -> Env -> outcome Env unit.

(** What [import colorlog] gives: nothing when it raises [ImportError],
    else the [ColoredFormatter] the function builds from its constants. *)
Variable colorlog : option pyval.





(** [configure_development_logging]: the handler is
    [colorlog.StreamHandler()], built without a stream argument.  The
    [except ImportError] clause also covers the call of [setup_logging];
    no exception class of the embedding is an [ImportError], so whatever
    that call raises reaches the caller. *)
Definition configure_development_logging : M unit :=
  match colorlog with
  | Some formatter =>
      let console_handler := StreamHandler PNone in
      let console_handler := setFormatter console_handler formatter in
      Api.setup_logging rt
        (list_to_map
           [ ("level", PInt DEBUG);
             ("handlers", PList [console_handler]);
             ("force", PBool true) ])
  | None => Api.setup_default_logging rt "DEBUG" false true "logs"
  end.

End Functions.

End LoggingConfig.

Definition kw_trailing_slash : dict := kw [("filename", PStr "logs/")].
Definition fs_with_logs : Posix.FS :=
  Posix.mkFS ["srv"; "app"] [["srv"; "app"; "logs"]; ["srv"]; ["srv"; "app"]] [].

(** * Properties *)

(** ** Paths *)

Example dirname_nested : Posix.dirname "logs/iot/app.log" = "logs/iot".
Proof. reflexivity. Qed.
Example dirname_plain : Posix.dirname "app.log" = "".
Proof. reflexivity. Qed.
Example dirname_rootfile : Posix.dirname "/app.log" = "/".
Proof. reflexivity. Qed.
Example path_join_logs : Posix.path_join "logs" "application.log" = "logs/application.log".
Proof. reflexivity. Qed.
Example path_join_messy : Posix.path_join "./a//b/" "application.log" = "a/b/application.log".
Proof. reflexivity. Qed.
Example path_join_empty : Posix.path_join "" "application.log" = "application.log".
Proof. reflexivity. Qed.
Example path_str_empty : Posix.path_str "" = ".".
Proof. reflexivity. Qed.

(** ** What a computation leaves alone *)

Lemma fs_only_refl w : fs_only w w.
Proof. repeat split. Qed.

Lemma fs_only_trans w1 w2 w3 : fs_only w1 w2 -> fs_only w2 w3 -> fs_only w1 w3.
Proof.
  unfold fs_only. intros (a1 & a2 & a3 & a4 & a5 & a6) (b1 & b2 & b3 & b4 & b5 & b6).
  repeat split; congruence.
Qed.

Lemma preserves_ret {A} (a : A) : preserves fs_only (ret a).
Proof. intros w. apply fs_only_refl. Qed.

Lemma preserves_raise {A} (e : exn) : preserves fs_only (@raise A e).
Proof. intros w. apply fs_only_refl. Qed.

Lemma preserves_bind {A B} (m : M A) (k : A -> M B) :
  preserves fs_only m -> (forall a, preserves fs_only (k a)) ->
  preserves fs_only (bind m k).
Proof.
  intros Hm Hk w. unfold bind. specialize (Hm w).
  destruct (m w) as [a w'|e w']; simpl in *; [|exact Hm].
  eapply fs_only_trans; [exact Hm | apply Hk].
Qed.

Lemma preserves_fs_call f : preserves fs_only (fs_call f).
Proof.
  intros w. unfold fs_call. destruct (f (fs (env w))); simpl; repeat split.
Qed.

Lemma preserves_subscript d k : preserves fs_only (subscript d k).
Proof.
  unfold subscript. destruct (d !! k); [apply preserves_ret | apply preserves_raise].
Qed.

Lemma preserves_dirname v : preserves fs_only (os_path_dirname v).
Proof. destruct v; simpl; first [apply preserves_ret | apply preserves_raise]. Qed.

Lemma preserves_RotatingFileHandler n m b e :
  preserves fs_only (RotatingFileHandler n m b e).
Proof.
  unfold RotatingFileHandler. apply preserves_bind.
  - apply preserves_fs_call.
  - intros _. apply preserves_ret.
Qed.

Create HintDb frame.
#[local] Hint Resolve preserves_ret preserves_raise preserves_fs_call
  preserves_subscript preserves_dirname preserves_RotatingFileHandler
  fs_only_refl : frame.

Ltac frame_step :=
  match goal with
  | |- preserves fs_only (bind _ _) => apply preserves_bind; [|intros ?]
  | |- preserves fs_only (if ?b then _ else _) => destruct b
  | |- preserves fs_only (match ?v with _ => _ end) => destruct v
  | |- preserves fs_only _ => solve [auto with frame]
  end.

(** Handler creation touches nothing but the file system. *)
Lemma create_handlers_frame config : preserves fs_only (_create_handlers config).
Proof.
  unfold _create_handlers.
  repeat frame_step.
  all: intros w; simpl; apply fs_only_refl.
Qed.

(** ** The two branches of [configure] *)

Section DriverFacts.

Variable rt : Runtime.

Lemma choose_handlers_frame kwargs config :
  preserves fs_only (choose_handlers kwargs config).
Proof.
  intros w. unfold choose_handlers.
  destruct (kwargs !! "handlers"); [apply fs_only_refl|].
  destruct (truthy _); [|apply fs_only_refl].
  apply (preserves_bind (_create_handlers config)).
  - apply create_handlers_frame.
  - intros hs. apply preserves_ret.
Qed.

Lemma configure_skipped kwargs w :
  skipped kwargs w = true -> configure rt kwargs w = Returned tt (warned w).
Proof. unfold configure, skipped. intros ->. reflexivity. Qed.

(** What a call that is not skipped amounts to. *)
Lemma configure_not_skipped kwargs w :
  skipped kwargs w = false ->
  configure rt kwargs w =
  (config <- choose_handlers kwargs (dict_update default_config kwargs) ;;
   apply_basicConfig rt config ;;
   log_configured rt config)%py w.
Proof. unfold configure, skipped. intros ->. reflexivity. Qed.

(** A call that returns leaves the manager configured. *)
Lemma configure_returns_configured kwargs w w' :
  configure rt kwargs w = Returned tt w' -> _configured w' = true.
Proof.
  destruct (skipped kwargs w) eqn:Hs.
  - rewrite (configure_skipped _ _ Hs). intros [= <-]. simpl.
    unfold skipped in Hs. apply andb_true_iff in Hs. tauto.
  - rewrite (configure_not_skipped _ _ Hs). unfold bind.
    destruct (choose_handlers _ _ w) as [cfg w1|]; [|discriminate].
    unfold apply_basicConfig.
    destruct (basicConfig rt cfg (env w1)) as [[] e|]; [|discriminate].
    unfold log_configured. simpl.
    destruct (root_debug rt cfg e) as [[] e'|]; [|discriminate].
    intros [= <-]. reflexivity.
Qed.

(** A call that is not skipped and returns has handed exactly one
    dictionary to [basicConfig]: the one [choose_handlers] produced. *)
Lemma configure_applies kwargs w w' :
  skipped kwargs w = false ->
  configure rt kwargs w = Returned tt w' ->
  exists cfg w1,
    choose_handlers kwargs (dict_update default_config kwargs) w = Returned cfg w1
    /\ applied w' = cfg :: applied w
    /\ custom_handlers w' = custom_handlers w.
Proof.
  intros Hs. rewrite (configure_not_skipped _ _ Hs). unfold bind.
  pose proof (choose_handlers_frame kwargs (dict_update default_config kwargs) w) as Hf.
  destruct (choose_handlers _ _ w) as [cfg w1|]; [|discriminate].
  simpl in Hf. destruct Hf as (_ & Hc & Ha & _).
  unfold apply_basicConfig.
  destruct (basicConfig rt cfg (env w1)) as [[] e|]; [|discriminate].
  unfold log_configured. simpl.
  destruct (root_debug rt cfg e) as [[] e'|]; [|discriminate].
  intros [= <-]. exists cfg, w1. simpl. rewrite Ha, Hc. auto.
Qed.

End DriverFacts.

(** ** The merge of [configure] *)

(** [config.update(kwargs)] on a copy of the defaults, read key by key. *)
Lemma merge_lookup_present (kwargs : dict) k v :
  kwargs !! k = Some v -> dict_update default_config kwargs !! k = Some v.
Proof. intros H. unfold dict_update. by apply lookup_union_Some_l. Qed.

Lemma merge_lookup_absent (kwargs : dict) k :
  kwargs !! k = None ->
  dict_update default_config kwargs !! k = default_config !! k.
Proof. intros H. unfold dict_update. by apply lookup_union_r. Qed.

(** The dictionary [configure] hands on differs from the merge at most in
    its [handlers] entry. *)
Lemma choose_handlers_lookup (kwargs : dict) w cfg w1 :
  choose_handlers kwargs (dict_update default_config kwargs) w = Returned cfg w1 ->
  (forall k v, kwargs !! k = Some v -> cfg !! k = Some v)
  /\ (forall k, kwargs !! k = None -> k <> "handlers" ->
                cfg !! k = default_config !! k).
Proof.
  unfold choose_handlers.
  destruct (kwargs !! "handlers") as [h|] eqn:Hh.
  - intros [= <- <-]. split.
    + intros k v Hk. destruct (decide (k = "handlers")) as [->|Hne].
      * rewrite lookup_insert_eq. congruence.
      * rewrite lookup_insert_ne by congruence. by apply merge_lookup_present.
    + intros k Hk Hne. rewrite lookup_insert_ne by congruence.
      by apply merge_lookup_absent.
  - destruct (truthy _).
    + unfold bind. destruct (_create_handlers _ w) as [hs w2|]; [|discriminate].
      intros [= <- <-]. split.
      * intros k v Hk. rewrite lookup_insert_ne by congruence.
        by apply merge_lookup_present.
      * intros k Hk Hne. rewrite lookup_insert_ne by congruence.
        by apply merge_lookup_absent.
    + intros [= <- <-]. split.
      * intros k v Hk. by apply merge_lookup_present.
      * intros k Hk _. by apply merge_lookup_absent.
Qed.

(** Every dictionary [configure] hands to [basicConfig] has all the keys
    of the defaults, [stream], [filename] and [handlers] among them.
    (CPython's [basicConfig] answers the joint presence of [stream] and
    [filename] with [ValueError] whenever the root logger has no handler
    left; the statements below hold for every runtime, this one
    included.) *)
Lemma choose_handlers_has_default_keys (kwargs : dict) w cfg w1 k :
  choose_handlers kwargs (dict_update default_config kwargs) w = Returned cfg w1 ->
  is_Some (default_config !! k) -> is_Some (cfg !! k).
Proof.
  intros Hch Hd.
  destruct (choose_handlers_lookup _ _ _ _ Hch) as [Hp Ha].
  destruct (kwargs !! k) as [v|] eqn:Hk; [exists v; by apply Hp|].
  destruct (decide (k = "handlers")) as [->|Hne]; [|by rewrite Ha].
  revert Hch. unfold choose_handlers. rewrite Hk.
  destruct (truthy _).
  - unfold bind. destruct (_create_handlers _ w) as [hs w2|]; [|discriminate].
    intros [= <- <-]. rewrite lookup_insert_eq. by eexists.
  - intros [= <- <-]. by rewrite merge_lookup_absent.
Qed.

Example handed_dictionary_has_stream_and_filename :
  let w := final_state (configure lenient kw_forced at_start) in
  (active w ≫= (.!! "stream")) = Some PNone
  /\ (active w ≫= (.!! "filename")) = Some PNone
  /\ (active w ≫= (.!! "handlers")) = Some PNone.
Proof. vm_compute. auto. Qed.

(** ** C1: reconfiguration without [force] *)

(** C1.  When the manager is configured and the [force] option is not
    true, [configure] returns normally and changes nothing but standard
    output, on which it prints its message: the flag, the registered
    handlers, the active configuration, the root logger and the file
    system stay as they were.  In particular a call without [force] that
    follows a call that returned is such a no-op, so none of its fields
    reaches the active configuration. *)
Theorem configure_without_force_is_noop
    (rt : Runtime) (kwargs1 kwargs2 : dict) (w : World) :
  truthy (dict_get kwargs2 "force" (PBool false)) = false ->
  (_configured w = true -> configure rt kwargs2 w = Returned tt (warned w))
  /\ (forall w1, configure rt kwargs1 w = Returned tt w1 ->
        configure rt kwargs2 w1 = Returned tt (warned w1))
  /\ (forall v,
        _configured (warned v) = _configured v
        /\ custom_handlers (warned v) = custom_handlers v
        /\ active (warned v) = active v
        /\ root_level (env (warned v)) = root_level (env v)
        /\ root_handlers (env (warned v)) = root_handlers (env v)
        /\ fs (env (warned v)) = fs (env v)
        /\ stdout (env (warned v)) = (stdout (env v) ++ [skip_message])%list).
Proof.
  intros Hforce. split; [|split].
  - intros Hc. apply configure_skipped. unfold skipped. by rewrite Hc, Hforce.
  - intros w1 H1. apply configure_skipped. unfold skipped.
    by rewrite (configure_returns_configured rt _ _ _ H1), Hforce.
  - intros v. repeat split.
Qed.

Lemma configure_without_force_is_noop_witness :
  configure lenient kw_error_only
    (final_state (configure lenient kw_debug_file at_start))
  = Returned tt (warned (final_state (configure lenient kw_debug_file at_start))).
Proof.
  apply (proj1 (proj2 (configure_without_force_is_noop
                         lenient kw_debug_file kw_error_only at_start eq_refl))).
  vm_compute. reflexivity.
Defined.

(** ** C3: the effective configuration *)

(** C3.  Whenever [configure] is not skipped and returns, the dictionary
    it made active carries, for every key of the caller's options, the
    caller's value, and for every other key the value of the stored
    defaults ([handlers], which [configure] may fill in with the derived
    sinks, apart); nothing of a previously active configuration enters. *)
Theorem configure_effective_is_shallow_merge
    (rt : Runtime) (kwargs : dict) (w w' : World) :
  skipped kwargs w = false ->
  configure rt kwargs w = Returned tt w' ->
  exists cfg,
    applied w' = cfg :: applied w
    /\ (forall k v, kwargs !! k = Some v -> cfg !! k = Some v)
    /\ (forall k, kwargs !! k = None -> k <> "handlers" ->
                  cfg !! k = default_config !! k)
    /\ (forall k v, kwargs !! k = Some v ->
                    dict_update default_config kwargs !! k = Some v)
    /\ (forall k, kwargs !! k = None ->
                  dict_update default_config kwargs !! k = default_config !! k).
Proof.
  intros Hs Hr.
  destruct (configure_applies rt _ _ _ Hs Hr) as (cfg & w1 & Hch & Ha & _).
  destruct (choose_handlers_lookup _ _ _ _ Hch) as [Hp Hd].
  exists cfg. repeat split; auto using merge_lookup_present, merge_lookup_absent.
Qed.

Lemma configure_effective_is_shallow_merge_witness :
  exists cfg,
    applied (final_state (configure lenient kw_debug_file at_start))
    = cfg :: applied at_start
    /\ cfg !! "level" = Some (PInt DEBUG)
    /\ cfg !! "encoding" = Some (PStr "utf-8").
Proof.
  destruct (configure_effective_is_shallow_merge lenient kw_debug_file at_start
              (final_state (configure lenient kw_debug_file at_start)))
    as (cfg & Ha & Hp & Hd & _).
  - reflexivity.
  - vm_compute. reflexivity.
  - exists cfg. split; [exact Ha|]. split.
    + apply Hp. reflexivity.
    + rewrite Hd; [reflexivity | reflexivity | discriminate].
Defined.

(** ** C2: two forced calls in a row *)




(** ** C4: the sink list *)

Lemma truthy_or a b : truthy (py_or a b) = truthy a || truthy b.
Proof. unfold py_or. destruct (truthy a) eqn:E; simpl; [exact E | reflexivity]. Qed.

Lemma dict_get_present (d : dict) k v dflt :
  d !! k = Some v -> dict_get d k dflt = v.
Proof. unfold dict_get. by intros ->. Qed.

(** Every key of the defaults is a key of the merge. *)
Lemma merge_has_default_keys (kwargs : dict) k :
  is_Some (default_config !! k) -> is_Some (dict_update default_config kwargs !! k).
Proof.
  intros Hd. destruct (kwargs !! k) as [v|] eqn:Hk.
  - exists v. by apply merge_lookup_present.
  - by rewrite merge_lookup_absent.
Qed.

Lemma dict_get_any_default (d : dict) k d1 d2 :
  is_Some (d !! k) -> dict_get d k d1 = dict_get d k d2.
Proof. intros [v Hv]. unfold dict_get. by rewrite Hv. Qed.

(** When [_create_handlers] returns, its result is the described list. *)
Lemma create_handlers_result (config : dict) w hs w' :
  is_Some (config !! "format") -> is_Some (config !! "datefmt") ->
  is_Some (config !! "encoding") ->
  _create_handlers config w = Returned hs w' ->
  hs = derived_sinks config (custom_handlers w).
Proof.
  intros Hfmt Hdate Henc.
  unfold _create_handlers, derived_sinks, console_sink, file_sink,
    formatter_of, field, bind, subscript, ret, raise, StreamHandler.
  rewrite (dict_get_any_default config "format" _ PNone Hfmt).
  rewrite (dict_get_any_default config "datefmt" _ PNone Hdate).
  rewrite (dict_get_any_default config "encoding" (PStr "utf-8") PNone Henc).
  assert (Hlvl : forall v, config !! "level" = Some v -> dict_get config "level" PNone = v)
    by (intros v; apply dict_get_present).
  assert (Hname : forall v, config !! "filename" = Some v -> dict_get config "filename" PNone = v)
    by (intros v; apply dict_get_present).
  assert (Hcon : truthy (dict_get config "disable_console" PNone)
                 = truthy (dict_get config "disable_console" (PBool false)))
    by (unfold dict_get; destruct (config !! "disable_console"); reflexivity).
  rewrite Hcon.
  destruct (truthy (dict_get config "disable_console" (PBool false))) eqn:Hdc;
    simpl.
  all: destruct (truthy (dict_get config "filename" PNone)) eqn:Hfn; simpl.
  all: destruct (config !! "level") as [lvl|] eqn:El; simpl;
    try rewrite (Hlvl _ eq_refl); try discriminate.
  all: try (intros [= <- <-]; reflexivity).
  all: destruct (config !! "filename") as [name|] eqn:En; simpl;
    try rewrite (Hname _ eq_refl); try discriminate.
  all: destruct name; simpl; try discriminate.
  all: unfold py_or, fs_call, RotatingFileHandler, bind, fs_call, ret; simpl.
  all: repeat match goal with
         | |- context [negb ?b] => destruct (negb b); simpl
         | |- context [Posix.mkdir_exist_ok ?d ?f] =>
             destruct (Posix.mkdir_exist_ok d f); simpl; try discriminate
         | |- context [Posix.open_append ?d ?f] =>
             destruct (Posix.open_append d f); simpl; try discriminate
         end.
  all: try (subst; intros [= <- <-]; reflexivity).
Qed.


(** C4.  Whenever [configure] is not skipped and returns, the [handlers]
    entry of the configuration it made active is: the caller's [handlers]
    value, verbatim and without any derivation (the state handed to
    [basicConfig] is the caller's), when the caller's options have that
    key; otherwise, when the file name is set or a custom handler is
    registered, exactly the console sink (unless the console is disabled),
    then the rotating file sink (when the file name is set), then the
    registered custom handlers in registration order; otherwise the
    default [None], that is, no sink list. *)
Theorem configure_sink_list
    (rt : Runtime) (kwargs : dict) (w w' : World) :
  skipped kwargs w = false ->
  configure rt kwargs w = Returned tt w' ->
  let effective := dict_update default_config kwargs in
  exists cfg w1,
    choose_handlers kwargs effective w = Returned cfg w1
    /\ active w' = Some cfg
    /\ match kwargs !! "handlers" with
       | Some v => cfg !! "handlers" = Some v /\ w1 = w
       | None =>
           if truthy (field effective "filename") || nonempty (custom_handlers w)
           then cfg !! "handlers"
                = Some (PList (derived_sinks effective (custom_handlers w)))
           else cfg !! "handlers" = Some PNone /\ w1 = w
       end.
Proof.
  intros Hs Hr effective.
  destruct (configure_applies rt _ _ _ Hs Hr) as (cfg & w1 & Hch & Ha & _).
  exists cfg, w1. split; [exact Hch|]. split; [unfold active; by rewrite Ha|].
  revert Hch. unfold choose_handlers. fold effective.
  destruct (kwargs !! "handlers") as [v|] eqn:Hh.
  - intros [= <- <-]. by rewrite lookup_insert_eq.
  - rewrite truthy_or. unfold field. simpl truthy at 2.
    change (match custom_handlers w with [] => false | _ => true end)
      with (nonempty (custom_handlers w)).
    destruct (truthy (dict_get effective "filename" PNone) || nonempty (custom_handlers w)).
    + unfold bind.
      destruct (_create_handlers effective w) as [hs w2|] eqn:Hc; [|discriminate].
      intros [= <- <-]. rewrite lookup_insert_eq. do 2 f_equal.
      eapply create_handlers_result; [..|exact Hc];
        apply merge_has_default_keys; by eexists.
    + intros [= <- <-]. split; [|reflexivity].
      subst effective. by rewrite merge_lookup_absent.
Qed.

Lemma configure_sink_list_witness :
  exists cfg,
    active (final_state (configure lenient kw_file_no_console with_two_customs))
    = Some cfg
    /\ cfg !! "handlers"
       = Some (PList
                 [PRotatingFileHandler (PStr "logs/iot_system.log")
                    (PInt 4096) (PInt 5) (PStr "utf-8")
                    (PFormatter the_format the_datefmt) (PInt INFO);
                  PObject 7; PObject 8]).
Proof.
  destruct (configure_sink_list lenient kw_file_no_console with_two_customs
              (final_state (configure lenient kw_file_no_console with_two_customs)))
    as (cfg & w1 & _ & Ha & Hh).
  - reflexivity.
  - vm_compute. reflexivity.
  - exists cfg. split; [exact Ha|]. exact Hh.
Defined.

(** ** C10: the bypass is keyed on the presence of [handlers] *)

(** C10.  When the caller's options contain the key [handlers], whatever
    its value ([None] included), [configure] does not derive any sink: it
    is either skipped or goes straight to [basicConfig], in the caller's
    state, with [handlers] set to the caller's value; this holds also
    when the file name is set or custom handlers are registered. *)
Theorem handlers_key_bypasses_derivation
    (rt : Runtime) (kwargs : dict) (w : World) (v : pyval) :
  kwargs !! "handlers" = Some v ->
  let cfg := <["handlers" := v]> (dict_update default_config kwargs) in
  cfg !! "handlers" = Some v
  /\ configure rt kwargs w
     = (if skipped kwargs w then Returned tt (warned w)
        else (apply_basicConfig rt cfg ;; log_configured rt cfg)%py w)
  /\ (forall w', skipped kwargs w = false ->
                 configure rt kwargs w = Returned tt w' ->
                 active w' = Some cfg).
Proof.
  intros Hh cfg.
  assert (Heq : skipped kwargs w = false ->
                configure rt kwargs w
                = (apply_basicConfig rt cfg ;; log_configured rt cfg)%py w).
  { intros Hs. rewrite (configure_not_skipped rt _ _ Hs).
    unfold bind at 1. unfold choose_handlers. rewrite Hh. reflexivity. }
  split; [apply lookup_insert_eq|]. split.
  - destruct (skipped kwargs w) eqn:Hs; [by apply configure_skipped | by apply Heq].
  - intros w' Hs Hr. rewrite (Heq Hs) in Hr. revert Hr.
    unfold bind, apply_basicConfig, log_configured.
    destruct (basicConfig rt cfg (env w)) as [[] e|]; [|discriminate]. simpl.
    destruct (root_debug rt cfg e) as [[] e'|]; [|discriminate].
    by intros [= <-].
Qed.

(** With [handlers=None] given explicitly no directory is created and no
    file is opened, although a file name is set and custom handlers are
    registered. *)
Lemma handlers_key_bypasses_derivation_witness :
  (exists cfg,
     active (final_state (configure lenient kw_file_handlers_none with_two_customs))
     = Some cfg /\ cfg !! "handlers" = Some PNone)
  /\ fs (env (final_state (configure lenient kw_file_handlers_none with_two_customs)))
     = fs (env with_two_customs).
Proof.
  destruct (handlers_key_bypasses_derivation lenient kw_file_handlers_none
              with_two_customs PNone eq_refl) as (Hl & _ & Ha).
  split.
  - eexists. split; [apply Ha; [reflexivity | vm_compute; reflexivity] | exact Hl].
  - vm_compute. reflexivity.
Defined.

(** ** C5: [reset] *)

Lemma py_eqb_refl : forall x, py_eqb x x = true.
Proof.
  fix IH 1. intros x. destruct x; simpl.
  - reflexivity.
  - apply eqb_reflx.
  - apply Z.eqb_refl.
  - apply String.eqb_refl.
  - induction xs as [|y ys IHys]; [reflexivity|].
    rewrite (IH y). exact IHys.
  - reflexivity.
  - by rewrite !IH.
  - by rewrite !IH.
  - by rewrite !IH.
  - apply Nat.eqb_refl.
Qed.

Lemma list_remove_sublist x l : list_remove x l `sublist_of` l.
Proof.
  induction l as [|y l IH]; simpl; [constructor|].
  destruct (py_eqb y x); [by apply sublist_cons | by apply sublist_skip].
Qed.

Lemma removeHandler_sublist x l : removeHandler x l `sublist_of` l.
Proof.
  unfold removeHandler. destruct (existsb _ l); [apply list_remove_sublist | done].
Qed.

Lemma removeHandler_head x l : removeHandler x (x :: l) = l.
Proof. unfold removeHandler. simpl. by rewrite py_eqb_refl. Qed.

(** Removing, one after the other, the handlers of a copy of the list
    empties every list that holds no other handlers than the copy. *)
Lemma remove_all_of_copy (copy : list pyval) :
  forall hs, hs `sublist_of` copy ->
             fold_left (fun hs handler => removeHandler handler hs) copy hs = [].
Proof.
  induction copy as [|h copy IH]; intros hs Hsub; simpl.
  - by apply sublist_nil_r.
  - apply IH. inversion Hsub as [|x l1 l2 Hl|x l1 l2 Hl]; subst.
    + rewrite removeHandler_head. exact Hl.
    + etransitivity; [apply removeHandler_sublist | exact Hl].
Qed.

(** C5.  In every state, [reset] (which cannot raise) clears
    [_configured], empties [custom_handlers] and leaves the root logger
    without any handler: the manager is as [__init__] made it and
    [get_config] reports [configured = False] and a handler count of 0.
    A second [reset] changes nothing. *)
Theorem reset_clears_manager_and_sinks (w : World) :
  _configured (reset w) = false
  /\ custom_handlers (reset w) = []
  /\ root_handlers (env (reset w)) = []
  /\ _configured (reset w) = _configured (init_world (env (reset w)))
  /\ custom_handlers (reset w) = custom_handlers (init_world (env (reset w)))
  /\ get_config (reset w) !! "configured" = Some (PBool false)
  /\ get_config (reset w) !! "handlers_count" = Some (PInt 0)
  /\ reset (reset w) = reset w.
Proof.
  assert (He : root_handlers (env (reset w)) = []).
  { unfold reset. simpl. by apply remove_all_of_copy. }
  repeat split; try exact He.
  - unfold get_config. simpl. rewrite remove_all_of_copy by done. reflexivity.
  - unfold reset at 1. rewrite He. unfold reset. simpl.
    rewrite remove_all_of_copy by done. reflexivity.
Qed.

Example reset_after_configure :
  let w := final_state (configure lenient kw_debug_file with_two_customs) in
  length (root_handlers (env w)) = 4
  /\ get_config (reset w) !! "handlers_count" = Some (PInt 0)
  /\ get_config (reset w) !! "level" = Some (PInt DEBUG).
Proof. vm_compute. auto. Qed.

(** ** C9: the registered custom handlers *)

(** The same handler registered twice is held twice. *)
Lemma duplicate_registration_is_kept :
  custom_handlers (register_all [PObject 7; PObject 7] at_start)
  = [PObject 7; PObject 7]
  /\ ~ NoDup (custom_handlers (register_all [PObject 7; PObject 7] at_start)).
Proof.
  split; [reflexivity|]. simpl. intros H.
  apply NoDup_cons in H as [Hin _]. apply Hin. left.
Qed.

Lemma register_all_appends hs : forall w,
  custom_handlers (register_all hs w) = (custom_handlers w ++ hs)%list
  /\ _configured (register_all hs w) = _configured w
  /\ applied (register_all hs w) = applied w
  /\ env (register_all hs w) = env w.
Proof.
  induction hs as [|h hs IH]; intros w.
  - simpl. by rewrite app_nil_r.
  - change (register_all (h :: hs) w)
      with (register_all hs (final_state (add_custom_handler h w))).
    destruct (IH (final_state (add_custom_handler h w))) as (-> & -> & -> & ->).
    simpl. by rewrite <- app_assoc.
Qed.

Section RegistrationFacts.

Variable rt : Runtime.

(** [configure] never touches the registered handlers, however it ends. *)
Lemma configure_keeps_custom_handlers kwargs w :
  custom_handlers (final_state (configure rt kwargs w)) = custom_handlers w.
Proof.
  destruct (skipped kwargs w) eqn:Hs.
  - by rewrite (configure_skipped rt _ _ Hs).
  - rewrite (configure_not_skipped rt _ _ Hs). unfold bind.
    pose proof (choose_handlers_frame kwargs (dict_update default_config kwargs) w) as Hf.
    destruct (choose_handlers _ _ w) as [cfg w1|e w1]; simpl in Hf;
      destruct Hf as (_ & Hc & _); [|exact Hc].
    unfold apply_basicConfig.
    destruct (basicConfig rt cfg (env w1)) as [[] e|x e]; [|exact Hc].
    unfold log_configured. simpl.
    destruct (root_debug rt cfg e) as [[] e'|x e']; exact Hc.
Qed.

End RegistrationFacts.

(** C9, amended.  [custom_handlers] grows only by [add_custom_handler],
    which never fails and appends its argument at the end without looking
    for it in the list; [configure] leaves the list alone.  After any
    sequence of registrations the list is the earlier list followed by the
    registered handlers in call order, so a handler occurs in it as often
    as it was registered: no handler occurs twice exactly when the
    registered handlers are pairwise distinct and were not in the list. *)
Theorem custom_handlers_append_only
    (rt : Runtime) (hs : list pyval) (kwargs : dict) (w : World) :
  (forall h, add_custom_handler h w
             = Returned tt (mkWorld (_configured w) (custom_handlers w ++ [h])%list
                                    (applied w) (env w)))
  /\ custom_handlers (register_all hs w) = (custom_handlers w ++ hs)%list
  /\ (NoDup (custom_handlers (register_all hs w))
      <-> NoDup (custom_handlers w ++ hs)%list)
  /\ custom_handlers (final_state (configure rt kwargs w)) = custom_handlers w.
Proof.
  destruct (register_all_appends hs w) as (Heq & _).
  split; [reflexivity|]. split; [exact Heq|]. split.
  - by rewrite Heq.
  - apply configure_keeps_custom_handlers.
Qed.

(** ** C6 and C7: [setup_default_config] *)

Section SetupFacts.

Variable rt : Runtime.

Lemma setup_default_config_delegates level f c d w :
  setup_default_config rt level f c d w
  = ((if f then fs_call (Posix.mkdir_exist_ok d) else ret tt) ;;
     configure rt (default_options rt level f c d))%py w.
Proof.
  unfold setup_default_config, default_options, bind.
  destruct f; simpl.
  - destruct (fs_call (Posix.mkdir_exist_ok d) w); reflexivity.
  - reflexivity.
Qed.


Lemma default_options_force level f c d :
  default_options rt level f c d !! "force" = Some (PBool true).
Proof. unfold default_options. destruct f, c; reflexivity. Qed.

Lemma default_options_not_skipped level f c d w :
  skipped (default_options rt level f c d) w = false.
Proof.
  unfold skipped.
  rewrite (dict_get_present _ _ _ _ (default_options_force level f c d)).
  apply andb_false_r.
Qed.

(** A call of [setup_default_config] that returns has made active a
    configuration that agrees with the built options on all their keys. *)
Lemma setup_default_config_applies level f c d w w' :
  setup_default_config rt level f c d w = Returned tt w' ->
  exists cfg,
    applied w' = cfg :: applied w
    /\ _configured w' = true
    /\ forall k v, default_options rt level f c d !! k = Some v ->
                   cfg !! k = Some v.
Proof.
  rewrite setup_default_config_delegates. unfold bind.
  assert (Hpre : preserves fs_only
                   (if f then fs_call (Posix.mkdir_exist_ok d) else ret tt))
    by (destruct f; auto with frame).
  specialize (Hpre w).
  destruct ((if f then fs_call (Posix.mkdir_exist_ok d) else ret tt) w)
    as [[] w1|]; [|discriminate].
  simpl in Hpre. destruct Hpre as (_ & _ & Ha & _).
  intros Hr.
  destruct (configure_applies rt _ _ _ (default_options_not_skipped level f c d w1) Hr)
    as (cfg & w2 & Hch & Hap & _).
  exists cfg. rewrite Hap, Ha. split; [reflexivity|]. split.
  - exact (configure_returns_configured rt _ _ _ Hr).
  - exact (proj1 (choose_handlers_lookup _ _ _ _ Hch)).
Qed.

End SetupFacts.




(** C7.  Every call of [setup_default_config] amounts to the creation of
    the log directory (when logging to a file) followed by [configure] on
    the options it builds.  These always carry [force = True], so that
    [configure] is never skipped, whatever the state; with [log_to_file]
    they carry the file name [log_dir/application.log], [max_bytes] of
    10 MiB and [backup_count] of 5; without [log_to_console] they carry
    [disable_console = True].  A call that returns has made a
    configuration with these entries active. *)
Theorem setup_default_config_forces_and_delegates
    (rt : Runtime) (level : string) (f c : bool) (d : string) (w : World) :
  let opts := default_options rt level f c d in
  setup_default_config rt level f c d w
  = ((if f then fs_call (Posix.mkdir_exist_ok d) else ret tt) ;;
     configure rt opts)%py w
  /\ opts !! "force" = Some (PBool true)
  /\ (forall w1, skipped opts w1 = false)
  /\ (f = true ->
        opts !! "filename" = Some (PStr (Posix.path_join d "application.log"))
        /\ opts !! "max_bytes" = Some (PInt 10485760)
        /\ opts !! "backup_count" = Some (PInt 5))
  /\ (c = false -> opts !! "disable_console" = Some (PBool true))
  /\ (forall w', setup_default_config rt level f c d w = Returned tt w' ->
        exists cfg,
          applied w' = cfg :: applied w
          /\ _configured w' = true
          /\ forall k v, opts !! k = Some v -> cfg !! k = Some v).
Proof.
  intros opts. subst opts.
  split; [apply setup_default_config_delegates|].
  split; [apply default_options_force|].
  split; [apply default_options_not_skipped|].
  split; [|split].
  - intros ->. unfold default_options. destruct c; repeat split.
  - intros ->. unfold default_options. destruct f; reflexivity.
  - apply setup_default_config_applies.
Qed.

Example setup_default_config_while_configured :
  let w := final_state (configure lenient kw_debug_file at_start) in
  let w' := final_state (setup_default_config lenient "warning" true false "logs" w) in
  _configured w = true
  /\ stdout (env w') = []
  /\ (active w' ≫= (.!! "level")) = Some (PInt WARNING)
  /\ (active w' ≫= (.!! "filename")) = Some (PStr "logs/application.log")
  /\ (active w' ≫= (.!! "disable_console")) = Some (PBool true).
Proof. vm_compute. auto 6. Qed.

(** ** C8: the directory of the log file *)

(** C8.  With [filename='logs/iot/system.log'] in a working directory that
    has no [logs] directory, [configure] raises [FileNotFoundError] out of
    the directory creation, whatever the runtime: [logs/iot] is not
    created (nor is [logs]), no file is opened and nothing is applied. *)
Theorem nested_log_directory_is_not_created (rt : Runtime) :
  Posix.dirname "logs/iot/system.log" = "logs/iot"
  /\ Posix.is_dir (fs (env at_start)) ["srv"; "app"; "logs"] = false
  /\ configure rt kw_nested_file at_start = Raised FileNotFoundError at_start.
Proof. repeat split. Qed.

(** One missing level is created, and the file is opened in it. *)
Example single_log_directory_is_created :
  let w := final_state (configure lenient kw_debug_file at_start) in
  returns (configure lenient kw_debug_file at_start) = true
  /\ Posix.dirs (fs (env w)) = [["srv"; "app"; "logs"]; ["srv"]; ["srv"; "app"]]
  /\ Posix.files (fs (env w)) = [["srv"; "app"; "logs"; "iot_system.log"]].
Proof. vm_compute. auto. Qed.

Lemma walk_app fs0 comps1 : forall cur comps2,
  Posix.walk fs0 cur (comps1 ++ comps2)%list
  = match Posix.walk fs0 cur comps1 with
    | inr mid => Posix.walk fs0 mid comps2
    | inl e => inl e
    end.
Proof.
  induction comps1 as [|c1 comps1 IH]; intros cur comps2; simpl; [reflexivity|].
  destruct (String.eqb c1 "" || String.eqb c1 "."); [apply IH|].
  destruct (String.eqb c1 ".."); [apply IH|].
  destruct (Posix.is_dir fs0 (cur ++ [c1])%list); [apply IH|].
  destruct (Posix.is_file fs0 (cur ++ [c1])%list); reflexivity.
Qed.

(** A path that is a directory already: [os.mkdir] reports that it
    exists. *)
Lemma os_mkdir_existing q fs0 :
  Posix.path_is_dir q fs0 = true -> Posix.os_mkdir q fs0 = inl FileExistsError.
Proof.
  unfold Posix.path_is_dir, Posix.os_mkdir.
  destruct (Posix.walk fs0 (Posix.start_dir fs0 q) (Posix.components q))
    as [|r] eqn:Hw; [discriminate|].
  destruct (String.eqb q ""); [discriminate|]. intros _.
  assert (Hne : forall c, In c (rev (Posix.components q)) -> String.eqb c "" = false).
  { intros c Hc. apply in_rev in Hc. unfold Posix.components in Hc.
    apply filter_In in Hc as [_ Hc]. by apply negb_true_iff. }
  rewrite <- (rev_involutive (Posix.components q)) in Hw.
  destruct (rev (Posix.components q)) as [|last rinit]; [reflexivity|].
  specialize (Hne last (or_introl eq_refl)).
  simpl rev in Hw. rewrite walk_app in Hw.
  destruct (Posix.walk fs0 (Posix.start_dir fs0 q) (rev rinit)) as [|parent];
    [discriminate|].
  destruct (String.eqb last "." || String.eqb last "..") eqn:Hdots; [reflexivity|].
  apply orb_false_iff in Hdots as [Hdot Hdotdot].
  simpl in Hw. rewrite Hne, Hdot, Hdotdot in Hw. simpl in Hw.
  destruct (Posix.is_dir fs0 (parent ++ [last])%list); [reflexivity|].
  destruct (Posix.is_file fs0 (parent ++ [last])%list); discriminate.
Qed.

(** Creation is idempotent: on a directory that exists,
    [mkdir(exist_ok=True)] succeeds and changes nothing. *)
Lemma mkdir_exist_ok_existing p fs0 :
  Posix.path_is_dir (Posix.path_str p) fs0 = true ->
  Posix.mkdir_exist_ok p fs0 = inr fs0.
Proof.
  intros Hd. unfold Posix.mkdir_exist_ok.
  by rewrite (os_mkdir_existing _ _ Hd), Hd.
Qed.

(** * Further properties of the driver *)

(** ** The flag and the history under [configure] *)

(** X1.  Whatever its outcome, [configure] never clears [_configured];
    either it leaves the flag and the history of applied dictionaries as
    they were, or [basicConfig] returned, exactly one dictionary was added
    to the history and the flag is set.  A call that fails before or
    inside [basicConfig] therefore leaves an unconfigured manager
    unconfigured. *)
Theorem configure_flag_and_history (rt : Runtime) (kwargs : dict) (w : World) :
  let w' := final_state (configure rt kwargs w) in
  (_configured w = true -> _configured w' = true)
  /\ ((applied w' = applied w /\ _configured w' = _configured w)
      \/ (exists cfg, applied w' = cfg :: applied w /\ _configured w' = true)).
Proof.
  destruct (skipped kwargs w) eqn:Hs.
  - rewrite (configure_skipped rt _ _ Hs). simpl. split; [done|]. by left.
  - rewrite (configure_not_skipped rt _ _ Hs). unfold bind.
    pose proof (choose_handlers_frame kwargs (dict_update default_config kwargs) w) as Hf.
    destruct (choose_handlers _ _ w) as [cfg w1|e w1]; simpl in Hf;
      destruct Hf as (Hc & _ & Ha & _).
    + unfold apply_basicConfig.
      destruct (basicConfig rt cfg (env w1)) as [[] e|x e]; simpl.
      * unfold log_configured. simpl.
        destruct (root_debug rt cfg e) as [[] e'|x e']; simpl;
          (split; [done|]; right; exists cfg; by rewrite Ha).
      * rewrite Hc, Ha. split; [done|]. by left.
    + simpl. rewrite Hc, Ha. split; [done|]. by left.
Qed.

(** ** Failures while the sinks are built *)

(** X2.  When [configure] has to derive the sinks and [_create_handlers]
    raises, [configure] raises the same exception in the same state:
    [basicConfig] is not called, and the flag, the registered handlers,
    the history, the root logger and standard output are as before; only
    the file system may have changed. *)
Theorem derivation_failure_reaches_caller
    (rt : Runtime) (kwargs : dict) (w w1 : World) (e : exn) :
  skipped kwargs w = false ->
  kwargs !! "handlers" = None ->
  truthy (field (dict_update default_config kwargs) "filename")
  || nonempty (custom_handlers w) = true ->
  _create_handlers (dict_update default_config kwargs) w = Raised e w1 ->
  configure rt kwargs w = Raised e w1 /\ fs_only w w1.
Proof.
  intros Hs Hh Ht Hc. split.
  - rewrite (configure_not_skipped rt _ _ Hs). unfold bind at 1.
    unfold choose_handlers. rewrite Hh, truthy_or. unfold field in Ht.
    simpl truthy at 2.
    change (match custom_handlers w with [] => false | _ => true end)
      with (nonempty (custom_handlers w)).
    rewrite Ht. unfold bind. by rewrite Hc.
  - pose proof (create_handlers_frame (dict_update default_config kwargs) w) as Hf.
    by rewrite Hc in Hf.
Qed.

Lemma derivation_failure_reaches_caller_witness :
  configure lenient kw_trailing_slash at_start
  = Raised IsADirectoryError (with_fs at_start fs_with_logs)
  /\ fs_only at_start (with_fs at_start fs_with_logs).
Proof.
  apply (derivation_failure_reaches_caller lenient kw_trailing_slash at_start
           (with_fs at_start fs_with_logs) IsADirectoryError); reflexivity.
Defined.

(** ** [configure] in closed form *)

Lemma field_lookup (d : dict) k v : d !! k = Some v -> field d k = v.
Proof. apply dict_get_present. Qed.







(** ** The exceptions of sink derivation *)









(** ** Registration, [reset] and [configure] together *)

(** The [handlers] entry a call without a [handlers] key hands on. *)
Lemma handlers_entry_derived (rt : Runtime) (kwargs : dict) (w w' : World) :
  skipped kwargs w = false ->
  kwargs !! "handlers" = None ->
  configure rt kwargs w = Returned tt w' ->
  exists cfg,
    applied w' = cfg :: applied w
    /\ custom_handlers w' = custom_handlers w
    /\ cfg !! "handlers"
       = Some (if truthy (field (dict_update default_config kwargs) "filename")
                  || nonempty (custom_handlers w)
               then PList (derived_sinks (dict_update default_config kwargs)
                                         (custom_handlers w))
               else PNone)
    /\ (forall k v, kwargs !! k = Some v -> cfg !! k = Some v).
Proof.
  intros Hs Hh Hr.
  destruct (configure_applies rt _ _ _ Hs Hr) as (cfg & w1 & Hch & Ha & Hcu).
  exists cfg. split; [exact Ha|]. split; [exact Hcu|]. split.
  - revert Hch. unfold choose_handlers. rewrite Hh, truthy_or. unfold field.
    simpl truthy at 2.
    change (match custom_handlers w with [] => false | _ => true end)
      with (nonempty (custom_handlers w)).
    destruct (truthy (dict_get _ "filename" PNone) || nonempty (custom_handlers w)).
    + unfold bind.
      destruct (_create_handlers _ w) as [hs w2|] eqn:Hc; [|discriminate].
      intros [= <- <-]. rewrite lookup_insert_eq. do 2 f_equal.
      eapply create_handlers_result; [..|exact Hc];
        apply merge_has_default_keys; by eexists.
    + intros [= <- <-]. by rewrite merge_lookup_absent.
  - exact (proj1 (choose_handlers_lookup _ _ _ _ Hch)).
Qed.



(** X8.  Registering a handler changes nothing but [custom_handlers]:
    [get_config] answers as before.  The next call of [configure] that is
    carried out without a [handlers] key and returns always derives the
    sinks, and the registered handler is the last of them. *)
Theorem registered_handler_is_last_sink
    (rt : Runtime) (kwargs : dict) (h : pyval) (w w' : World) :
  let w1 := final_state (add_custom_handler h w) in
  skipped kwargs w = false ->
  kwargs !! "handlers" = None ->
  configure rt kwargs w1 = Returned tt w' ->
  get_config w1 = get_config w
  /\ exists cfg sinks,
       active w' = Some cfg
       /\ cfg !! "handlers" = Some (PList sinks)
       /\ sinks = derived_sinks (dict_update default_config kwargs)
                    (custom_handlers w ++ [h])%list
       /\ last sinks = Some h.
Proof.
  intros w1 Hs Hh Hr. split; [reflexivity|].
  assert (Hs1 : skipped kwargs w1 = false) by exact Hs.
  destruct (handlers_entry_derived rt _ _ _ Hs1 Hh Hr) as (cfg & Ha & _ & He & _).
  exists cfg, (derived_sinks (dict_update default_config kwargs)
                 (custom_handlers w ++ [h])%list).
  unfold active. rewrite Ha. split; [reflexivity|]. split; [|split; [reflexivity|]].
  - rewrite He. subst w1. simpl custom_handlers.
    replace (nonempty (custom_handlers w ++ [h])%list) with true
      by (destruct (custom_handlers w); reflexivity).
    by rewrite orb_true_r.
  - unfold derived_sinks. by rewrite !app_assoc, last_snoc.
Qed.

Lemma registered_handler_is_last_sink_witness :
  exists cfg sinks,
    active (final_state
              (configure lenient kw_error_only
                 (final_state (add_custom_handler (PObject 9) with_two_customs))))
    = Some cfg
    /\ cfg !! "handlers" = Some (PList sinks)
    /\ last sinks = Some (PObject 9).
Proof.
  destruct (registered_handler_is_last_sink lenient kw_error_only (PObject 9)
              with_two_customs
              (final_state
                 (configure lenient kw_error_only
                    (final_state (add_custom_handler (PObject 9) with_two_customs)))))
    as (_ & cfg & sinks & Ha & Hh & _ & Hl);
    [reflexivity | reflexivity | vm_compute; reflexivity |].
  exists cfg, sinks. auto.
Defined.

(** ** [setup_default_config] in closed form *)




(** X9.  With [log_to_file] false and no custom handler registered,
    [setup_default_config] builds no sink at all, whatever
    [log_to_console] says: it makes no file-system call and goes straight
    to [basicConfig] with [handlers] left at [None]; with
    [log_to_console] false the dictionary carries [disable_console], which
    nothing consults any more. *)
Theorem setup_default_config_without_sinks
    (rt : Runtime) (level : string) (c : bool) (d : string) (w : World) :
  custom_handlers w = [] ->
  let cfg := dict_update default_config (default_options rt level false c d) in
  setup_default_config rt level false c d w
  = (apply_basicConfig rt cfg ;; log_configured rt cfg)%py w
  /\ cfg !! "handlers" = Some PNone
  /\ (c = false -> cfg !! "disable_console" = Some (PBool true)).
Proof.
  intros Hc cfg. subst cfg.
  assert (Hh : default_options rt level false c d !! "handlers" = None)
    by (unfold default_options; destruct c; reflexivity).
  assert (Hf : default_options rt level false c d !! "filename" = None)
    by (unfold default_options; destruct c; reflexivity).
  split; [|split].
  - rewrite setup_default_config_delegates. unfold bind at 1. simpl.
    rewrite (configure_not_skipped rt _ _ (default_options_not_skipped rt level false c d w)).
    unfold bind at 1. unfold choose_handlers. rewrite Hh, Hc.
    unfold dict_get. rewrite merge_lookup_absent by exact Hf. reflexivity.
  - by rewrite merge_lookup_absent.
  - intros ->. by apply merge_lookup_present.
Qed.

Lemma setup_default_config_without_sinks_witness :
  setup_default_config lenient "debug" false false "logs" at_start
  = (apply_basicConfig lenient
       (dict_update default_config (default_options lenient "debug" false false "logs")) ;;
     log_configured lenient
       (dict_update default_config (default_options lenient "debug" false false "logs")))%py
      at_start.
Proof.
  apply (proj1 (setup_default_config_without_sinks lenient "debug" false "logs"
                  at_start eq_refl)).
Defined.



(** ** The callers in [logging_config.py] *)


Lemma forced_not_skipped (kwargs : dict) w :
  kwargs !! "force" = Some (PBool true) -> skipped kwargs w = false.
Proof.
  intros Hf. unfold skipped. rewrite (dict_get_present _ _ _ _ Hf).
  apply andb_false_r.
Qed.





(** X13.  [configure_development_logging].  With [colorlog] at hand the
    call goes, in every state and without any file-system call, straight
    to [basicConfig] with exactly one sink, the stream handler carrying
    the coloured formatter: registered custom handlers are left out.
    Without [colorlog] it is [setup_default_config("DEBUG", False, True,
    "logs")]: no file sink, and when it returns the sink list is the
    console sink followed by the custom handlers if some are registered,
    and no sink list at all if none is. *)
Theorem development_logging_sinks
    (rt : Runtime) (formatter : pyval) (w : World) :
  let handler := PStreamHandler PNone formatter (PInt NOTSET) in
  let kwargs : dict :=
    list_to_map [ ("level", PInt DEBUG); ("handlers", PList [handler]);
                  ("force", PBool true) ] in
  let cfg := <["handlers" := PList [handler]]> (dict_update default_config kwargs) in
  let lvl := getattr_logging rt "DEBUG" (PInt INFO) in
  LoggingConfig.configure_development_logging rt (Some formatter) w
  = (apply_basicConfig rt cfg ;; log_configured rt cfg)%py w
  /\ cfg !! "handlers" = Some (PList [handler])
  /\ LoggingConfig.configure_development_logging rt None w
     = setup_default_config rt "DEBUG" false true "logs" w
  /\ (forall w',
        LoggingConfig.configure_development_logging rt None w = Returned tt w' ->
        exists c,
          active w' = Some c
          /\ c !! "level" = Some lvl
          /\ c !! "handlers"
             = Some (if nonempty (custom_handlers w)
                     then PList (PStreamHandler PStdout
                                   (PFormatter the_format the_datefmt) lvl
                                 :: custom_handlers w)
                     else PNone)).
Proof.
  intros handler kwargs cfg lvl.
  split; [|split; [apply lookup_insert_eq|split; [reflexivity|]]].
  - unfold LoggingConfig.configure_development_logging, Api.setup_logging.
    change (setFormatter (StreamHandler PNone) formatter) with handler.
    fold kwargs.
    rewrite (configure_not_skipped rt kwargs w
               (forced_not_skipped kwargs w eq_refl)).
    reflexivity.
  - intros w'. unfold LoggingConfig.configure_development_logging,
      Api.setup_default_logging.
    rewrite setup_default_config_delegates. unfold bind at 1. simpl.
    intros Hr.
    set (opts := default_options rt "DEBUG" false true "logs") in *.
    assert (Hs : skipped opts w = false) by (apply forced_not_skipped; reflexivity).
    destruct (handlers_entry_derived rt _ _ _ Hs eq_refl Hr)
      as (c & Ha & _ & He & Hk).
    exists c. unfold active. rewrite Ha. split; [reflexivity|].
    split; [apply Hk; reflexivity|].
    rewrite He. destruct (nonempty (custom_handlers w)); reflexivity.
Qed.

(** ** The keys of the dictionary handed to [basicConfig] *)

(** X14.  Whenever [configure] is carried out and returns, the dictionary
    it handed to [basicConfig] has every key of the defaults, so [stream],
    [filename] and [handlers] are always passed together, and it passes
    every key of the caller on unchanged, the driver's own [max_bytes],
    [backup_count] and [disable_console] included. *)
Theorem handed_dictionary_keys (rt : Runtime) (kwargs : dict) (w w' : World) :
  skipped kwargs w = false ->
  configure rt kwargs w = Returned tt w' ->
  exists cfg,
    active w' = Some cfg
    /\ (forall k, is_Some (default_config !! k) -> is_Some (cfg !! k))
    /\ is_Some (cfg !! "stream") /\ is_Some (cfg !! "filename")
    /\ is_Some (cfg !! "handlers")
    /\ (forall k, is_Some (kwargs !! k) -> is_Some (cfg !! k)).
Proof.
  intros Hs Hr.
  destruct (configure_applies rt _ _ _ Hs Hr) as (cfg & w1 & Hch & Ha & _).
  assert (Hd : forall k, is_Some (default_config !! k) -> is_Some (cfg !! k))
    by (intros k; by apply (choose_handlers_has_default_keys _ _ _ _ _ Hch)).
  exists cfg. unfold active. rewrite Ha. split; [reflexivity|].
  split; [exact Hd|].
  split; [apply Hd; by eexists|]. split; [apply Hd; by eexists|].
  split; [apply Hd; by eexists|].
  intros k [v Hv]. exists v.
  by apply (proj1 (choose_handlers_lookup _ _ _ _ Hch)).
Qed.

Lemma handed_dictionary_keys_witness :
  exists cfg,
    active (final_state (configure lenient kw_file_no_console at_start)) = Some cfg
    /\ is_Some (cfg !! "stream") /\ is_Some (cfg !! "max_bytes").
Proof.
  destruct (handed_dictionary_keys lenient kw_file_no_console at_start
              (final_state (configure lenient kw_file_no_console at_start)))
    as (cfg & Ha & _ & Hst & _ & _ & Hk).
  - reflexivity.
  - vm_compute. reflexivity.
  - exists cfg. split; [exact Ha|]. split; [exact Hst|].
    apply Hk. by eexists.
Defined.
